(** * Messaging core of backend/app.js

    A shallow embedding of the message routes and of the Socket.IO handlers
    of [backend/app.js] (POST /messages, GET /messages/:userId, the [io.use]
    handshake middleware, the ['connection'] and ['sendMessage'] handlers),
    followed by the properties of the delivery and history model.  The
    [authMiddleware] in front of the routes and the like route
    (POST /posts/:id/like) are embedded as well.

    Conventions of the embedding.
    - A JavaScript value that may be [undefined] is an [option]; identifiers
      (user ids, room names, tokens) are strings.  User identifiers stand for
      well-formed ObjectId values: Mongoose's casting of ill-formed
      identifiers is outside the model.
    - The [Message] collection is the list of its documents in insertion
      order.  [sort({ createdAt: 1 })] is a stable insertion sort on that
      order (MongoDB leaves the order of equal keys open).
    - An [async] handler is a computation over the server state that either
      completes or rejects; [await] is the bind of that monad.
    - Whether [save] and [find] succeed is read from the environment: a
      rejection stands for an unreachable database as well as for a document
      or a query that Mongoose refuses.
    - [jwt.verify(token, JWT_SECRET)] is a parameter: [None] when it throws,
      [Some id] for the [id] of the decoded payload (tokens are minted by
      [jwt.sign({ id: user._id }, ...)] only).
    - Socket.IO rooms are the per-user rooms the program joins with
      [socket.join]; the private room Socket.IO keeps for every socket under
      its own connection id is not modelled. *)

From Stdlib Require Import Bool List String Ascii ZArith NArith Lia.
From Stdlib Require Import Permutation Sorted.
Import ListNotations.

Local Open Scope string_scope.
Local Open Scope list_scope.

(** ** JavaScript values *)

Module JS.

(** Truthiness of a value that is [undefined] or a string. *)
Definition truthy (v : option string) : bool :=
  match v with
  | Some s => negb (s =? EmptyString)
  | None => false
  end.

(** [a || b] *)
Definition or (a b : option string) : option string :=
  if truthy a then a else b.

(** [String(v)] *)
Definition String (v : option string) : string :=
  match v with
  | Some s => s
  | None => "undefined"
  end.

(** [s.split(' ')] *)
Fixpoint split_space (s : string) : list string :=
  match s with
  | EmptyString => [EmptyString]
  | String.String c rest =>
      let pieces := split_space rest in
      if Ascii.eqb c " "%char then EmptyString :: pieces
      else match pieces with
           | [] => [String.String c EmptyString]
           | piece :: others => String.String c piece :: others
           end
  end.

End JS.

(** ** Mongoose model and Socket.IO state *)

(** A document of [MessageSchema].  No path is [required]; [_id] and
    [createdAt] are filled in when the document is constructed. *)
Record Message : Type := mkMessage {
  _id : N;
  sender : option string;
  receiver : option string;
  text : option string;
  media_url : option string;
  createdAt : Z
}.

(** A connected socket: its connection id, the [userId] property set by the
    handshake middleware, and the rooms it joined. *)
Record Socket : Type := mkSocket {
  socket_id : string;
  userId : option string;
  rooms : list string
}.

(** What is passed to [emit('message', ...)]: the object literal built by
    POST /messages, or the Mongoose document itself. *)
Inductive EventData : Type :=
| PlainObject (id : N) (osender oreceiver otext omedia_url : option string)
              (ocreatedAt : Z)
| Document (m : Message).

(** One event delivered to one socket. *)
Record Push : Type := mkPush {
  target : string;
  event : string;
  data : EventData
}.

(** The server: the Message collection, the connected sockets, and the
    events delivered so far. *)
Record Server : Type := mkServer {
  messages : list Message;
  sockets : list Socket;
  delivered : list Push
}.

(** What a handler reads from outside: the clock, the ObjectId generator and
    whether its database operation succeeds. *)
Record Env : Type := mkEnv {
  Date_now : Z;
  fresh_oid : N;
  db_ok : bool
}.

(** ** Asynchronous handlers *)

Inductive Outcome (A : Type) : Type :=
| Done (a : A)
| Threw (err : string).
Arguments Done {A} a.
Arguments Threw {A} err.

Definition Async (A : Type) : Type := Env -> Server -> Server * Outcome A.

Definition ret {A} (a : A) : Async A := fun _ w => (w, Done a).

Definition bind {A B} (c : Async A) (k : A -> Async B) : Async B :=
  fun env w =>
    match c env w with
    | (w', Done a) => k a env w'
    | (w', Threw e) => (w', Threw e)
    end.

Declare Scope async_scope.
Delimit Scope async_scope with async.
Notation "x <- c ;; k" := (bind c (fun x => k))
  (at level 61, c at next level, right associativity) : async_scope.
Notation "c ;; k" := (bind c (fun _ => k))
  (at level 61, right associativity) : async_scope.
Local Open Scope async_scope.

(** [new Message({ sender, receiver, text, media_url })] *)
Definition new_Message (s r t m : option string) : Async Message :=
  fun env w =>
    (w, Done {| _id := fresh_oid env; sender := s; receiver := r;
                text := t; media_url := m; createdAt := Date_now env |}).

(** [await doc.save()] *)
Definition save (doc : Message) : Async unit :=
  fun env w =>
    if db_ok env
    then ({| messages := messages w ++ [doc]; sockets := sockets w;
             delivered := delivered w |}, Done tt)
    else (w, Threw "MongoError").

Definition in_room (room : string) (s : Socket) : bool :=
  existsb (String.eqb room) (rooms s).

(** The sockets [io.to(room)] addresses. *)
Definition io_to (room : string) (w : Server) : list Socket :=
  filter (in_room room) (sockets w).

(** [io.to(room).emit(ev, d)] *)
Definition io_to_emit (room ev : string) (d : EventData) : Async unit :=
  fun _ w =>
    ({| messages := messages w; sockets := sockets w;
        delivered := delivered w
                     ++ map (fun s => mkPush (socket_id s) ev d) (io_to room w) |},
     Done tt).

(** ** The history query *)

(** A query clause [{ path: v }] on a path that may be absent. *)
Definition path_is (field : option string) (v : string) : bool :=
  match field with
  | Some x => x =? v
  | None => false
  end.

(** [{ $or: [ { sender: me, receiver: other }, { sender: other, receiver: me } ] }] *)
Definition or_query (me other : string) (m : Message) : bool :=
  (path_is (sender m) me && path_is (receiver m) other)
  || (path_is (sender m) other && path_is (receiver m) me).

Fixpoint insert_createdAt (m : Message) (l : list Message) : list Message :=
  match l with
  | [] => [m]
  | x :: rest =>
      if (createdAt m <=? createdAt x)%Z then m :: l
      else x :: insert_createdAt m rest
  end.

(** [.sort({ createdAt: 1 })] *)
Definition sort_createdAt (l : list Message) : list Message :=
  fold_right insert_createdAt [] l.

(** [.limit(n)] *)
Definition limit (n : nat) (l : list Message) : list Message := firstn n l.

(** The result set of the query of GET /messages/:userId. *)
Definition range (docs : list Message) (me other : string) : list Message :=
  limit 1000 (sort_createdAt (filter (or_query me other) docs)).

(** [await Message.find(...).sort(...).limit(1000)] *)
Definition find_sort_limit (me other : string) : Async (list Message) :=
  fun env w =>
    if db_ok env then (w, Done (range (messages w) me other))
    else (w, Threw "MongoError").

(** ** HTTP requests and responses *)

Record Request : Type := mkRequest {
  authorization : option string;   (* req.headers.authorization *)
  receiverId : option string;      (* req.body.receiverId *)
  body_text : option string;       (* req.body.text *)
  body_media_url : option string;  (* req.body.media_url *)
  params_userId : string           (* req.params.userId *)
}.

Inductive Body : Type :=
| JsonError (error : string)
| JsonMessage (m : Message)
| JsonMessages (l : list Message).

Record Response : Type := mkResponse {
  status : nat;
  body : Body
}.

(** [res.json(b)] *)
Definition res_json (b : Body) : Response := mkResponse 200 b.

(** [res.status(code).json({ error })] *)
Definition res_status_json (code : nat) (error : string) : Response :=
  mkResponse code (JsonError error).

Section Handlers.

(** [token => jwt.verify(token, JWT_SECRET).id], [None] when it throws. *)
Variable jwt_verify : string -> option string.

(** [authMiddleware]: either ends the request with 401 ([inl]) or sets
    [req.userId] and calls [next] ([inr]). *)
Definition authMiddleware (req : Request) : Response + string :=
  match authorization req with
  | None => inl (res_status_json 401 "No auth header")
  | Some header =>
      if header =? EmptyString then inl (res_status_json 401 "No auth header")
      else
        match nth_error (JS.split_space header) 1 with
        | None => inl (res_status_json 401 "Invalid auth header")
        | Some token =>
            if token =? EmptyString then inl (res_status_json 401 "Invalid auth header")
            else
              match jwt_verify token with
              | Some id => inr id
              | None => inl (res_status_json 401 "Invalid token")
              end
        end
  end.

(** [app.<method>(path, authMiddleware, handler)] *)
Definition route (handler : string -> Request -> Async Response)
           (req : Request) : Async Response :=
  match authMiddleware req with
  | inl refused => ret refused
  | inr req_userId => handler req_userId req
  end.

(** The handler of POST /messages. *)
Definition post_messages_handler (req_userId : string) (req : Request)
  : Async Response :=
  msg <- new_Message (Some req_userId) (receiverId req)
                     (body_text req) (body_media_url req) ;;
  save msg ;;
  io_to_emit (JS.String (receiverId req)) "message"
             (PlainObject (_id msg) (Some req_userId) (receiverId req)
                          (body_text req) (body_media_url req)
                          (createdAt msg)) ;;
  ret (res_json (JsonMessage msg)).

Definition post_messages : Request -> Async Response :=
  route post_messages_handler.

(** The handler of GET /messages/:userId. *)
Definition get_messages_handler (req_userId : string) (req : Request)
  : Async Response :=
  let other := params_userId req in
  found <- find_sort_limit req_userId other ;;
  ret (res_json (JsonMessages found)).

Definition get_messages : Request -> Async Response :=
  route get_messages_handler.

(** The [io.use] middleware: the value of [socket.userId] after it ran.
    It calls [next()] on every path, so the connection always proceeds. *)
Definition io_use (token : option string) : option string :=
  match token with
  | None => None
  | Some t =>
      if t =? EmptyString then None
      else match jwt_verify t with
           | Some id => Some id
           | None => None
           end
  end.

(** [io.on('connection', ...)] for the socket [sid] whose handshake
    carried [token]: the socket joins its user's room when it has one. *)
Definition connect (sid : string) (token : option string) : Socket :=
  let uid := io_use token in
  mkSocket sid uid (if JS.truthy uid then [JS.String uid] else []).

Definition on_connection (sid : string) (token : option string) : Async Socket :=
  fun _ w =>
    let socket := connect sid token in
    ({| messages := messages w; sockets := sockets w ++ [socket];
        delivered := delivered w |}, Done socket).

End Handlers.

(** The payload of a ['sendMessage'] event. *)
Record SendPayload : Type := mkSendPayload {
  p_from : option string;
  p_to : option string;
  p_text : option string;
  p_media_url : option string
}.

(** [socket.on('sendMessage', async (payload) => ...)] *)
Definition on_sendMessage (socket : Socket) (payload : SendPayload) : Async unit :=
  message <- new_Message (JS.or (userId socket) (p_from payload)) (p_to payload)
                         (p_text payload) (p_media_url payload) ;;
  save message ;;
  io_to_emit (JS.String (p_to payload)) "message" (Document message) ;;
  io_to_emit (JS.String (sender message)) "message" (Document message).

(** The sockets removed when a connection closes (the ['disconnect'] handler
    itself is empty). *)
Definition on_disconnect (sid : string) : Async unit :=
  fun _ w =>
    ({| messages := messages w;
        sockets := filter (fun s => negb (socket_id s =? sid)) (sockets w);
        delivered := delivered w |}, Done tt).

(** The live sessions of a user: the sockets in the user's room. *)
Definition sessionsFor (w : Server) (user : option string) : list Socket :=
  io_to (JS.String user) w.


(** ** The two transports of a send *)

(** A send request as it reaches the server: over HTTP (POST /messages) or
    as a ['sendMessage'] event on a connected socket. *)
Inductive SendRequest : Type :=
| ViaHttp (req : Request)
| ViaSocket (socket : Socket) (payload : SendPayload).

(** Runs the handler of the transport; the HTTP response, if one is written,
    is kept. *)
Definition send (jwt_verify : string -> option string) (r : SendRequest)
  : Async (option Response) :=
  match r with
  | ViaHttp req => res <- post_messages jwt_verify req ;; ret (Some res)
  | ViaSocket socket payload => on_sendMessage socket payload ;; ret None
  end.

(** The sender and the receiver the handler of the transport gives to
    [new Message]; none when the request does not reach the handler. *)
Definition send_parties (jwt_verify : string -> option string) (r : SendRequest)
  : option (option string * option string) :=
  match r with
  | ViaHttp req =>
      match authMiddleware jwt_verify req with
      | inr req_userId => Some (Some req_userId, receiverId req)
      | inl _ => None
      end
  | ViaSocket socket payload =>
      Some (JS.or (userId socket) (p_from payload), p_to payload)
  end.

(** ** Vocabulary of the properties *)

(** The unordered participant pair of [m] is {a, b}. *)
Definition same_participants (a b : string) (m : Message) : Prop :=
  forall x : option string,
    (x = sender m \/ x = receiver m) <-> (x = Some a \/ x = Some b).

Definition createdAt_le (x y : Message) : Prop :=
  (createdAt x <= createdAt y)%Z.

(** [user] is the sender or the receiver of [m]. *)
Definition participant (user : string) (m : Message) : Prop :=
  sender m = Some user \/ receiver m = Some user.

(** The request was refused with a client error and created no record. *)
Definition rejected_unchanged (w : Server) (result : Server * Outcome Response)
  : Prop :=
  exists code error,
    400 <= code /\ result = (w, Done (mkResponse code (JsonError error))).

(** ** Sample data *)

(** A verifier that accepts the tokens [valid:<id>]. *)
Definition sample_verify (t : string) : option string :=
  if String.prefix "valid:" t
  then Some (String.substring 6 (String.length t - 6) t)
  else None.

(** Four user identifiers (ObjectId strings). *)
Definition u1 : string := "650000000000000000000001".
Definition u2 : string := "650000000000000000000002".
Definition u3 : string := "650000000000000000000003".
Definition u9 : string := "650000000000000000000009".

Definition bearer (user : string) : option string :=
  Some ("Bearer valid:" ++ user)%string.

Definition env_up (now : Z) (oid : N) : Env := mkEnv now oid true.
Definition env_down (now : Z) (oid : N) : Env := mkEnv now oid false.

Definition socket_c1 : Socket := mkSocket "c1" (Some u1) [u1].
Definition socket_c2 : Socket := mkSocket "c2" (Some u2) [u2].
Definition socket_anon : Socket := mkSocket "c3" None [].

Definition w_empty : Server := mkServer [] [] [].
Definition w_online : Server := mkServer [] [socket_c1; socket_c2] [].

(** u1 submits [{ receiverId: u2, text: "hi" }]. *)
Definition req_u1_to_u2 : Request :=
  mkRequest (bearer u1) (Some u2) (Some "hi") None EmptyString.

(** u1 submits an empty body. *)
Definition req_u1_no_fields : Request :=
  mkRequest (bearer u1) None None None EmptyString.

(** u1 fetches the history with u2, and u3 asks for the history with u2. *)
Definition req_u1_history_u2 : Request :=
  mkRequest (bearer u1) None None None u2.
Definition req_u3_history_u2 : Request :=
  mkRequest (bearer u3) None None None u2.

Definition msg (i : N) (s r text : string) (t : Z) : Message :=
  mkMessage i (Some s) (Some r) (Some text) None t.

(** A small conversation stored out of timestamp order, with a third user. *)
Definition w_chat : Server :=
  mkServer [ msg 1 u1 u2 "hi" 30; msg 2 u2 u1 "yo" 10;
             msg 3 u2 u3 "psst" 20; msg 4 u1 u2 "ok" 20 ] [] [].

(** A conversation of [n] messages from u1 to u2, at times 0 .. n-1. *)
Definition long_chat (n : nat) : list Message :=
  map (fun i => msg (N.of_nat i) u1 u2 "x" (Z.of_nat i)) (seq 0 n).

Definition w_full : Server := mkServer (long_chat 1000) [] [].

(** ** Runs of the server *)

(** What can reach the server: a socket connecting or closing, the two
    message routes, and a ['sendMessage'] event on a connection. *)
Inductive Event : Type :=
| Connect (sid : string) (token : option string)
| Disconnect (sid : string)
| PostMessages (req : Request)
| GetMessages (req : Request)
| SendMessage (sid : string) (payload : SendPayload).

(** The socket object of the connection [sid]. *)
Definition socket_of (sid : string) (w : Server) : option Socket :=
  find (fun s => socket_id s =? sid) (sockets w).

(** The server after the handler of [ev] has run (to completion or to its
    rejection).  An event on a connection that is not open has no handler. *)
Definition handle (jwt_verify : string -> option string) (ev : Event)
           (env : Env) (w : Server) : Server :=
  match ev with
  | Connect sid token => fst (on_connection jwt_verify sid token env w)
  | Disconnect sid => fst (on_disconnect sid env w)
  | PostMessages req => fst (post_messages jwt_verify req env w)
  | GetMessages req => fst (get_messages jwt_verify req env w)
  | SendMessage sid payload =>
      match socket_of sid w with
      | Some socket => fst (on_sendMessage socket payload env w)
      | None => w
      end
  end.

(** The handlers run one after the other, each in its own environment. *)
Fixpoint run (jwt_verify : string -> option string)
         (trace : list (Env * Event)) (w : Server) : Server :=
  match trace with
  | [] => w
  | (env, ev) :: rest => run jwt_verify rest (handle jwt_verify ev env w)
  end.

(** ** POST /posts/:id/like *)

(** An entry of [comments] in [PostSchema]. *)
Record Comment : Type := mkComment {
  comment_user : option string;
  comment_text : option string;
  comment_createdAt : option Z
}.

(** A document of [PostSchema]. *)
Record Post : Type := mkPost {
  post_id : N;
  post_user : option string;
  post_text : option string;
  post_media_url : option string;
  post_createdAt : Z;
  likes : list string;
  comments : list Comment
}.

(** What the like route answers: an error response, or [{ success: true }]. *)
Inductive LikeAnswer : Type :=
| LikeError (refusal : Response)
| LikeSuccess.

(** [Post.findById(id)] on the collection [posts]. *)
Definition findById (id : N) (posts : list Post) : option Post :=
  find (fun p => (post_id p =? id)%N) posts.

(** [post.likes.includes(user)], on identifiers as strings. *)
Definition likes_includes (post : Post) (user : string) : bool :=
  existsb (String.eqb user) (likes post).

(** [post.likes.push(user)] *)
Definition likes_push (post : Post) (user : string) : Post :=
  mkPost (post_id post) (post_user post) (post_text post) (post_media_url post)
         (post_createdAt post) (likes post ++ [user]) (comments post).

(** [post.save()] for a document read from the collection: the stored
    document of that [_id] is replaced. *)
Definition save_post (post : Post) (posts : list Post) : list Post :=
  map (fun stored => if (post_id stored =? post_id post)%N then post else stored)
      posts.

(** The handler of POST /posts/:id/like, on the Post collection.  A
    rejection of [findById] or of [save] leaves the collection as it was and
    the request unanswered. *)
Definition like_handler (req_userId : string) (id : N) (env : Env)
           (posts : list Post) : list Post * Outcome LikeAnswer :=
  if db_ok env then
    match findById id posts with
    | None => (posts, Done (LikeError (res_status_json 404 "Not found")))
    | Some post =>
        let post' := if likes_includes post req_userId then post
                     else likes_push post req_userId in
        (save_post post' posts, Done LikeSuccess)
    end
  else (posts, Threw "MongoError").

(** [app.post('/posts/:id/like', authMiddleware, ...)] *)
Definition post_like (jwt_verify : string -> option string) (req : Request)
           (id : N) (env : Env) (posts : list Post)
  : list Post * Outcome LikeAnswer :=
  match authMiddleware jwt_verify req with
  | inl refused => (posts, Done (LikeError refused))
  | inr req_userId => like_handler req_userId id env posts
  end.

(** ** Further vocabulary *)

(** [s] has no space character. *)
Fixpoint no_space (s : string) : bool :=
  match s with
  | EmptyString => true
  | String.String c rest => negb (Ascii.eqb c " "%char) && no_space rest
  end.

(** The rooms of a socket are what the ['connection'] handler joins for its
    [userId]: the user's room, or none. *)
Definition joined_own_room (s : Socket) : Prop :=
  rooms s = if JS.truthy (userId s) then [JS.String (userId s)] else [].

(** The data of a push is a record of the collection [docs]. *)
Definition push_of_stored (docs : list Message) (p : Push) : Prop :=
  match data p with
  | Document m => In m docs
  | PlainObject id s r t mu c => In (mkMessage id s r t mu c) docs
  end.

Definition createdAt_before (t : Z) (m : Message) : Prop :=
  (createdAt m < t)%Z.

(** No event of [trace] closes the connection [sid]. *)
Definition stays_connected (sid : string) (trace : list (Env * Event)) : bool :=
  forallb (fun step => match snd step with
                       | Disconnect closed => negb (closed =? sid)
                       | _ => true
                       end)
          trace.

(** ** More sample data *)

Definition post_by_u1 : Post :=
  mkPost 11 (Some u1) (Some "hello") None 5 [] [].
Definition post_by_u2 : Post :=
  mkPost 12 (Some u2) (Some "world") None 6 [u1] [].
Definition sample_posts : list Post := [post_by_u1; post_by_u2].

(** u2 likes a post: the request carries the credential only. *)
Definition req_u2_like : Request :=
  mkRequest (bearer u2) None None None EmptyString.

(** u2 submits [{ receiverId: u3, text: "hey" }]. *)
Definition req_u2_to_u3 : Request :=
  mkRequest (bearer u2) (Some u3) (Some "hey") None EmptyString.

(** While c7 stays connected: c1 closes, u1 posts to u2, an anonymous client
    connects. *)
Definition sample_interlude : list (Env * Event) :=
  [ (env_up 50 50, Disconnect "c1");
    (env_up 51 51, PostMessages req_u1_to_u2);
    (env_up 52 52, Connect "c8" None) ].

(** A day on the server: u1 and an anonymous client connect, u2 posts to
    u1, the anonymous client sends as u9 to u1, u1 closes. *)
Definition sample_trace : list (Env * Event) :=
  [ (env_up 1 1, Connect "c1" (Some ("valid:" ++ u1)%string));
    (env_up 2 2, Connect "c3" None);
    (env_up 3 3, PostMessages (mkRequest (bearer u2) (Some u1) (Some "hi") None
                                         EmptyString));
    (env_up 4 4, SendMessage "c3" (mkSendPayload (Some u9) (Some u1) (Some "yo") None));
    (env_up 5 5, Disconnect "c1") ].

(** * Properties *)

(** ** The query and the sort *)

Lemma path_is_true (field : option string) (v : string) :
  path_is field v = true <-> field = Some v.
Proof.
  destruct field as [x|]; simpl.
  - rewrite String.eqb_eq. split; congruence.
  - split; discriminate.
Qed.

Lemma or_query_true (me other : string) (m : Message) :
  or_query me other m = true <->
  (sender m = Some me /\ receiver m = Some other)
  \/ (sender m = Some other /\ receiver m = Some me).
Proof.
  unfold or_query.
  rewrite orb_true_iff, !andb_true_iff, !path_is_true. reflexivity.
Qed.

Lemma or_query_comm (a b : string) (m : Message) :
  or_query a b m = or_query b a m.
Proof. unfold or_query. apply orb_comm. Qed.

(** The $or query selects exactly the messages of the unordered pair. *)
Lemma or_query_same_participants (a b : string) (m : Message) :
  or_query a b m = true <-> same_participants a b m.
Proof.
  rewrite or_query_true. unfold same_participants. split.
  - intros [[Hs Hr]|[Hs Hr]] x; rewrite Hs, Hr; tauto.
  - intros H.
    destruct (H (sender m)) as [Hs _], (H (receiver m)) as [Hr _].
    destruct (H (Some a)) as [_ Ha], (H (Some b)) as [_ Hb].
    specialize (Hs (or_introl eq_refl)). specialize (Hr (or_intror eq_refl)).
    specialize (Ha (or_introl eq_refl)). specialize (Hb (or_intror eq_refl)).
    destruct Hs as [Hs|Hs], Hr as [Hr|Hr]; rewrite Hs, Hr in *; auto.
    + destruct Hb as [Hb|Hb]; rewrite Hb; auto.
    + destruct Ha as [Ha|Ha]; rewrite Ha; auto.
Qed.

Lemma or_query_participant (me other : string) (m : Message) :
  or_query me other m = true -> participant me m.
Proof.
  rewrite or_query_true. unfold participant. tauto.
Qed.

Lemma insert_createdAt_perm (m : Message) (l : list Message) :
  Permutation (insert_createdAt m l) (m :: l).
Proof.
  induction l as [|x rest IH]; simpl.
  - apply Permutation_refl.
  - destruct (createdAt m <=? createdAt x)%Z.
    + apply Permutation_refl.
    + apply perm_trans with (x :: m :: rest).
      * apply perm_skip, IH.
      * apply perm_swap.
Qed.

Lemma sort_createdAt_perm (l : list Message) :
  Permutation (sort_createdAt l) l.
Proof.
  induction l as [|x rest IH]; simpl.
  - apply perm_nil.
  - apply perm_trans with (x :: sort_createdAt rest).
    + apply insert_createdAt_perm.
    + apply perm_skip, IH.
Qed.

Lemma insert_createdAt_HdRel (a m : Message) (l : list Message) :
  createdAt_le a m -> HdRel createdAt_le a l ->
  HdRel createdAt_le a (insert_createdAt m l).
Proof.
  intros Ham Hal. destruct l as [|x rest]; simpl.
  - constructor. exact Ham.
  - destruct (createdAt m <=? createdAt x)%Z.
    + constructor. exact Ham.
    + constructor. inversion Hal; assumption.
Qed.

Lemma insert_createdAt_sorted (m : Message) (l : list Message) :
  Sorted createdAt_le l -> Sorted createdAt_le (insert_createdAt m l).
Proof.
  induction 1 as [|x rest Hsorted IH Hhd]; simpl.
  - repeat constructor.
  - destruct (createdAt m <=? createdAt x)%Z eqn:Hcmp.
    + constructor.
      * constructor; assumption.
      * constructor. unfold createdAt_le. apply Z.leb_le, Hcmp.
    + constructor.
      * exact IH.
      * apply insert_createdAt_HdRel; [|exact Hhd].
        unfold createdAt_le. apply Z.leb_gt in Hcmp. lia.
Qed.

Lemma sort_createdAt_sorted (l : list Message) :
  Sorted createdAt_le (sort_createdAt l).
Proof.
  induction l as [|x rest IH]; simpl.
  - constructor.
  - apply insert_createdAt_sorted, IH.
Qed.

(** A list splits into what a filter keeps and what it drops. *)
Lemma filter_split {A : Type} (f : A -> bool) (l : list A) :
  Permutation l (filter f l ++ filter (fun x => negb (f x)) l).
Proof.
  induction l as [|x rest IH]; simpl.
  - apply perm_nil.
  - destruct (f x); simpl.
    + apply perm_skip, IH.
    + apply Permutation_cons_app, IH.
Qed.

Lemma in_firstn {A : Type} (n : nat) (l : list A) (x : A) :
  In x (firstn n l) -> In x l.
Proof.
  intros Hin. rewrite <- (firstn_skipn n l).
  apply in_or_app. left. exact Hin.
Qed.

Lemma in_range (docs : list Message) (me other : string) (m : Message) :
  In m (range docs me other) -> In m docs /\ or_query me other m = true.
Proof.
  unfold range, limit. intros Hin.
  apply in_firstn in Hin.
  apply (Permutation_in _ (sort_createdAt_perm _)) in Hin.
  apply filter_In in Hin. exact Hin.
Qed.

Lemma range_all (docs : list Message) (me other : string) :
  List.length (filter (or_query me other) docs) <= 1000 ->
  range docs me other = sort_createdAt (filter (or_query me other) docs).
Proof.
  intros Hlen. unfold range, limit. apply firstn_all2.
  rewrite (Permutation_length (sort_createdAt_perm _)). exact Hlen.
Qed.

(** ** The handlers, step by step *)

Lemma route_authenticated (verify : string -> option string)
      (handler : string -> Request -> Async Response) (req : Request) (A : string) :
  authMiddleware verify req = inr A ->
  route verify handler req = handler A req.
Proof. unfold route. intros ->. reflexivity. Qed.

Lemma route_refused (verify : string -> option string)
      (handler : string -> Request -> Async Response) (req : Request)
      (refused : Response) (env : Env) (w : Server) :
  authMiddleware verify req = inl refused ->
  route verify handler req env w = (w, Done refused).
Proof. unfold route. intros ->. reflexivity. Qed.

(** The middleware refuses with 401 and an error body only. *)
Lemma authMiddleware_refusal (verify : string -> option string) (req : Request)
      (refused : Response) :
  authMiddleware verify req = inl refused ->
  exists error, refused = res_status_json 401 error.
Proof.
  unfold authMiddleware. intros H.
  repeat match type of H with
         | context [match ?x with _ => _ end] => destruct x
         end;
    inversion H; eexists; reflexivity.
Qed.

Lemma post_messages_handler_saved (A : string) (req : Request) (env : Env) (w : Server) :
  db_ok env = true ->
  let m := mkMessage (fresh_oid env) (Some A) (receiverId req) (body_text req)
                     (body_media_url req) (Date_now env) in
  post_messages_handler A req env w =
  (mkServer (messages w ++ [m]) (sockets w)
            (delivered w
             ++ map (fun s => mkPush (socket_id s) "message"
                                (PlainObject (fresh_oid env) (Some A) (receiverId req)
                                             (body_text req) (body_media_url req)
                                             (Date_now env)))
                    (filter (in_room (JS.String (receiverId req))) (sockets w))),
   Done (res_json (JsonMessage m))).
Proof.
  intros Hdb m.
  unfold post_messages_handler, bind, new_Message, save, io_to_emit, io_to, ret.
  rewrite Hdb. reflexivity.
Qed.

Lemma post_messages_handler_failed (A : string) (req : Request) (env : Env) (w : Server) :
  db_ok env = false ->
  post_messages_handler A req env w = (w, Threw "MongoError").
Proof.
  intros Hdb.
  unfold post_messages_handler, bind, new_Message, save.
  rewrite Hdb. reflexivity.
Qed.

Lemma on_sendMessage_saved (socket : Socket) (p : SendPayload) (env : Env) (w : Server) :
  db_ok env = true ->
  let m := mkMessage (fresh_oid env) (JS.or (userId socket) (p_from p)) (p_to p)
                     (p_text p) (p_media_url p) (Date_now env) in
  on_sendMessage socket p env w =
  (mkServer (messages w ++ [m]) (sockets w)
            ((delivered w
              ++ map (fun s => mkPush (socket_id s) "message" (Document m))
                     (filter (in_room (JS.String (p_to p))) (sockets w)))
             ++ map (fun s => mkPush (socket_id s) "message" (Document m))
                    (filter (in_room (JS.String (sender m))) (sockets w))),
   Done tt).
Proof.
  intros Hdb m.
  unfold on_sendMessage, bind, new_Message, save, io_to_emit, io_to.
  rewrite Hdb. reflexivity.
Qed.

Lemma on_sendMessage_failed (socket : Socket) (p : SendPayload) (env : Env) (w : Server) :
  db_ok env = false ->
  on_sendMessage socket p env w = (w, Threw "MongoError").
Proof.
  intros Hdb.
  unfold on_sendMessage, bind, new_Message, save.
  rewrite Hdb. reflexivity.
Qed.

(** The socket transport pushes the persisted document to every session of
    the receiver and to every session of the sender. *)
Lemma on_sendMessage_pushes_both_parties
      (socket : Socket) (p : SendPayload) (env : Env) (w : Server) (s : Socket) :
  db_ok env = true ->
  let m := mkMessage (fresh_oid env) (JS.or (userId socket) (p_from p)) (p_to p)
                     (p_text p) (p_media_url p) (Date_now env) in
  In s (sessionsFor w (receiver m)) \/ In s (sessionsFor w (sender m)) ->
  In (mkPush (socket_id s) "message" (Document m))
     (delivered (fst (on_sendMessage socket p env w))).
Proof.
  intros Hdb m Hs.
  rewrite (on_sendMessage_saved socket p env w Hdb). cbn [fst delivered].
  set (push := fun s0 : Socket => mkPush (socket_id s0) "message" (Document m)).
  change (mkPush (socket_id s) "message" (Document m)) with (push s).
  destruct Hs as [Hs|Hs].
  - apply in_or_app. left. apply in_or_app. right.
    apply in_map. exact Hs.
  - apply in_or_app. right. apply in_map. exact Hs.
Qed.

(** When the store refuses the write, neither transport leaves a trace: the
    collection, the sockets and the delivered events are what they were. *)
Lemma send_failed_write_leaves_state
      (verify : string -> option string) (r : SendRequest) (env : Env) (w : Server) :
  db_ok env = false -> fst (send verify r env w) = w.
Proof.
  intros Hdb. destruct r as [req|socket payload]; unfold send, bind.
  - unfold post_messages, route.
    destruct (authMiddleware verify req) as [refused|A].
    + reflexivity.
    + rewrite (post_messages_handler_failed A req env w Hdb). reflexivity.
  - rewrite (on_sendMessage_failed socket payload env w Hdb). reflexivity.
Qed.

(** ** Claims *)

(** C1 (the code departs from the claim on the HTTP transport): u1 and u2
    both have a live session; u1 submits a message for u2 through
    POST /messages.  The request succeeds and the message is stored, yet the
    only push goes to u2's session c2: u1's session c1 receives nothing,
    although ['sendMessage'] pushes to both parties. *)
Theorem post_messages_skips_sender_sessions :
  let result := post_messages sample_verify req_u1_to_u2 (env_up 100 7) w_online in
  snd result = Done (res_json (JsonMessage (msg 7 u1 u2 "hi" 100)))
  /\ messages (fst result) = [msg 7 u1 u2 "hi" 100]
  /\ sessionsFor (fst result) (Some u1) = [socket_c1]
  /\ sessionsFor (fst result) (Some u2) = [socket_c2]
  /\ map target (delivered (fst result)) = ["c2"].
Proof. repeat split. Qed.

(** C2: for a caller authenticated as A, GET /messages/B answers 200 with
    the first 1000 entries of a list that holds exactly the stored messages
    whose unordered participant pair is {A, B} (the rest of the collection
    being the messages of other pairs) and that ascends by [createdAt]. *)
Theorem get_messages_exact_history
        (verify : string -> option string) (req : Request) (env : Env)
        (w : Server) (A : string) :
  authMiddleware verify req = inr A ->
  db_ok env = true ->
  exists matching others : list Message,
    Permutation (messages w) (matching ++ others)
    /\ Forall (same_participants A (params_userId req)) matching
    /\ Forall (fun m => ~ same_participants A (params_userId req) m) others
    /\ Sorted createdAt_le matching
    /\ get_messages verify req env w
       = (w, Done (res_json (JsonMessages (firstn 1000 matching)))).
Proof.
  intros Hauth Hdb.
  set (B := params_userId req).
  exists (sort_createdAt (filter (or_query A B) (messages w))).
  exists (filter (fun m => negb (or_query A B m)) (messages w)).
  split; [|split; [|split; [|split]]].
  - apply perm_trans with (1 := filter_split (or_query A B) (messages w)).
    apply Permutation_app_tail, Permutation_sym, sort_createdAt_perm.
  - apply Forall_forall. intros m Hin.
    apply (Permutation_in _ (sort_createdAt_perm _)) in Hin.
    apply filter_In in Hin. apply or_query_same_participants, Hin.
  - apply Forall_forall. intros m Hin Hsame.
    apply filter_In in Hin. destruct Hin as [_ Hneg].
    apply or_query_same_participants in Hsame.
    rewrite Hsame in Hneg. discriminate.
  - apply sort_createdAt_sorted.
  - unfold get_messages. rewrite (route_authenticated _ _ _ _ Hauth).
    unfold get_messages_handler, bind, find_sort_limit, ret.
    rewrite Hdb. reflexivity.
Qed.

Lemma get_messages_exact_history_witness :
  exists matching others : list Message,
    Permutation (messages w_chat) (matching ++ others)
    /\ Forall (same_participants u1 u2) matching
    /\ Forall (fun m => ~ same_participants u1 u2 m) others
    /\ Sorted createdAt_le matching
    /\ get_messages sample_verify req_u1_history_u2 (env_up 100 7) w_chat
       = (w_chat, Done (res_json (JsonMessages (firstn 1000 matching)))).
Proof.
  apply (get_messages_exact_history sample_verify req_u1_history_u2
                                    (env_up 100 7) w_chat u1);
    reflexivity.
Defined.

(** C3 (the code departs from the claim on the caller's answer): the store
    refuses the write of a message submitted through POST /messages.  No
    record is created and nothing is pushed, but the handler has no
    [try]/[catch] (unlike /auth/signup, /auth/login and /ai): its promise
    rejects and no response, hence no error status, is written. *)
Theorem post_messages_failed_write_unanswered :
  post_messages sample_verify req_u1_to_u2 (env_down 100 7) w_online
  = (w_online, Threw "MongoError").
Proof. reflexivity. Qed.

(** C4: a ['sendMessage'] event on a socket without [userId] is handled to
    completion when the store accepts the write, and the stored message has
    the payload's [from] as its sender. *)
Theorem anonymous_sendMessage_uses_payload_from
        (socket : Socket) (p : SendPayload) (env : Env) (w : Server) :
  userId socket = None ->
  db_ok env = true ->
  exists (m : Message) (w' : Server),
    on_sendMessage socket p env w = (w', Done tt)
    /\ messages w' = messages w ++ [m]
    /\ sender m = p_from p
    /\ receiver m = p_to p /\ text m = p_text p /\ media_url m = p_media_url p.
Proof.
  intros Hanon Hdb.
  rewrite (on_sendMessage_saved socket p env w Hdb).
  rewrite Hanon. do 2 eexists. split; [reflexivity|].
  repeat split.
Qed.

Lemma anonymous_sendMessage_uses_payload_from_witness :
  exists (m : Message) (w' : Server),
    on_sendMessage socket_anon (mkSendPayload (Some u9) (Some u2) (Some "hi") None)
                   (env_up 100 7) w_online = (w', Done tt)
    /\ messages w' = messages w_online ++ [m]
    /\ sender m = Some u9
    /\ receiver m = Some u2 /\ text m = Some "hi" /\ media_url m = None.
Proof.
  apply (anonymous_sendMessage_uses_payload_from
           socket_anon (mkSendPayload (Some u9) (Some u2) (Some "hi") None)
           (env_up 100 7) w_online);
    reflexivity.
Defined.

(** C5: a connection whose handshake token is missing or is rejected by
    [jwt.verify] (malformed, expired, wrongly signed) is still accepted: the
    ['connection'] handler runs and registers a socket that has no [userId]
    and has joined no room, so no [io.to(room)] addresses it. *)
Theorem rejected_handshake_connects_anonymous
        (verify : string -> option string) (sid : string) (token : option string)
        (env : Env) (w : Server) :
  match token with Some t => verify t | None => None end = None ->
  exists (socket : Socket) (w' : Server),
    on_connection verify sid token env w = (w', Done socket)
    /\ sockets w' = sockets w ++ [socket]
    /\ socket_id socket = sid
    /\ userId socket = None
    /\ rooms socket = []
    /\ forall room : string, ~ In socket (io_to room w').
Proof.
  intros Hbad.
  assert (Huid : io_use verify token = None).
  { unfold io_use. destruct token as [t|]; [|reflexivity].
    destruct (t =? EmptyString); [reflexivity|]. rewrite Hbad. reflexivity. }
  unfold on_connection, connect. rewrite Huid. cbn [JS.truthy].
  do 2 eexists. split; [reflexivity|]. cbn [sockets socket_id userId rooms].
  repeat split.
  intros room Hin. unfold io_to in Hin. apply filter_In in Hin.
  destruct Hin as [_ Hroom]. discriminate Hroom.
Qed.

Lemma rejected_handshake_connects_anonymous_witness :
  exists (socket : Socket) (w' : Server),
    on_connection sample_verify "c9" (Some "expired.token") (env_up 100 7) w_online
    = (w', Done socket)
    /\ sockets w' = sockets w_online ++ [socket]
    /\ socket_id socket = "c9"
    /\ userId socket = None
    /\ rooms socket = []
    /\ forall room : string, ~ In socket (io_to room w').
Proof.
  apply (rejected_handshake_connects_anonymous
           sample_verify "c9" (Some "expired.token") (env_up 100 7) w_online).
  reflexivity.
Defined.

(** C6: the history query does not depend on the order of the pair: on every
    collection, [range A B] and [range B A] are the same sequence, and so
    are the outcomes of the query the handler awaits. *)
Theorem range_symmetric (docs : list Message) (A B : string) :
  range docs A B = range docs B A
  /\ forall (env : Env) (w : Server),
       find_sort_limit A B env w = find_sort_limit B A env w.
Proof.
  assert (Hrange : forall l, range l A B = range l B A).
  { intros l. unfold range. do 2 f_equal.
    apply filter_ext. intros m. apply or_query_comm. }
  split; [apply Hrange|].
  intros env w. unfold find_sort_limit. rewrite Hrange. reflexivity.
Qed.

(** C7, as stated, fails: u1 submits an empty body (no receiverId, no text)
    to POST /messages on an empty collection.  The request is answered 200
    with a stored record, not refused. *)
Lemma post_messages_accepts_missing_fields :
  receiverId req_u1_no_fields = None
  /\ body_text req_u1_no_fields = None
  /\ post_messages sample_verify req_u1_no_fields (env_up 100 7) w_empty
     = (mkServer [mkMessage 7 (Some u1) None None None 100] [] [],
        Done (mkResponse 200 (JsonMessage (mkMessage 7 (Some u1) None None None 100))))
  /\ ~ rejected_unchanged
       w_empty (post_messages sample_verify req_u1_no_fields (env_up 100 7) w_empty).
Proof.
  repeat split.
  intros (code & error & _ & Heq).
  cbv in Heq. discriminate Heq.
Qed.

(** C7, amended: POST /messages validates no body field.  Whatever fields
    are missing, an authenticated request whose write the store accepts is
    answered 200 with the persisted record, which carries the body's fields
    as they came (absent ones stay absent), and exactly that record is added
    to the collection. *)
Theorem post_messages_no_validation
        (verify : string -> option string) (req : Request) (env : Env)
        (w : Server) (A : string) :
  authMiddleware verify req = inr A ->
  db_ok env = true ->
  exists (m : Message) (w' : Server),
    post_messages verify req env w = (w', Done (mkResponse 200 (JsonMessage m)))
    /\ messages w' = messages w ++ [m]
    /\ sender m = Some A
    /\ receiver m = receiverId req
    /\ text m = body_text req
    /\ media_url m = body_media_url req.
Proof.
  intros Hauth Hdb.
  unfold post_messages. rewrite (route_authenticated _ _ _ _ Hauth).
  rewrite (post_messages_handler_saved A req env w Hdb).
  do 2 eexists. split; [reflexivity|]. repeat split.
Qed.

Lemma post_messages_no_validation_witness :
  exists (m : Message) (w' : Server),
    post_messages sample_verify req_u1_no_fields (env_up 100 7) w_empty
    = (w', Done (mkResponse 200 (JsonMessage m)))
    /\ messages w' = messages w_empty ++ [m]
    /\ sender m = Some u1
    /\ receiver m = None
    /\ text m = None
    /\ media_url m = None.
Proof.
  apply (post_messages_no_validation sample_verify req_u1_no_fields
                                     (env_up 100 7) w_empty u1);
    reflexivity.
Defined.

(** A message appended for the pair (A, B) is in the pair's history as long
    as fewer than 1000 messages of the pair were stored before it. *)
Lemma appended_in_range (docs : list Message) (A B : string) (m : Message) :
  sender m = Some A -> receiver m = Some B ->
  List.length (filter (or_query A B) docs) < 1000 ->
  In m (range (docs ++ [m]) A B).
Proof.
  intros Hs Hr Hlen.
  assert (Hq : or_query A B m = true) by (apply or_query_true; auto).
  rewrite range_all.
  - apply (Permutation_in _ (Permutation_sym (sort_createdAt_perm _))).
    apply filter_In. split; [|exact Hq].
    apply in_or_app. right. left. reflexivity.
  - rewrite filter_app, length_app. cbn [filter]. rewrite Hq.
    cbn [List.length]. lia.
Qed.

(** C8, as stated, fails: u1 and u2 have exchanged 1000 messages and have no
    live session; u1 submits one more through POST /messages.  The request
    succeeds and the record is stored, but the history of the pair, which
    keeps the 1000 oldest messages, does not return it. *)
Lemma send_offline_beyond_limit_not_in_range :
  let result := send sample_verify (ViaHttp req_u1_to_u2) (env_up 5000 5000) w_full in
  let m := msg 5000 u1 u2 "hi" 5000 in
  sessionsFor w_full (Some u1) = []
  /\ sessionsFor w_full (Some u2) = []
  /\ snd result = Done (Some (res_json (JsonMessage m)))
  /\ In m (messages (fst result))
  /\ ~ In m (range (messages (fst result)) u1 u2).
Proof.
  intros result m.
  assert (Hstore : messages (fst result) = long_chat 1000 ++ [m]) by reflexivity.
  split; [reflexivity|]. split; [reflexivity|]. split; [reflexivity|].
  rewrite Hstore. split.
  - apply in_or_app. right. left. reflexivity.
  - intros Hin.
    assert (Hold : forallb (fun x => (createdAt x <? 5000)%Z)
                           (range (long_chat 1000 ++ [m]) u1 u2) = true)
      by (vm_compute; reflexivity).
    rewrite forallb_forall in Hold. specialize (Hold m Hin).
    discriminate Hold.
Qed.

(** C8, amended: a send over either transport whose sender A and receiver B
    have no live session completes without error when the store accepts the
    write; it pushes nothing and adds exactly the new record to the
    collection, however long the conversation of the pair already is.
    Provided fewer than 1000 messages of the pair were stored before it, the
    history query of the pair returns it. *)
Theorem send_offline_persists
        (verify : string -> option string) (r : SendRequest) (env : Env)
        (w : Server) (A B : string) :
  send_parties verify r = Some (Some A, Some B) ->
  db_ok env = true ->
  sessionsFor w (Some A) = [] ->
  sessionsFor w (Some B) = [] ->
  exists (m : Message) (answer : option Response) (w' : Server),
    send verify r env w = (w', Done answer)
    /\ (forall response, answer = Some response ->
                         response = res_json (JsonMessage m))
    /\ sender m = Some A /\ receiver m = Some B
    /\ messages w' = messages w ++ [m]
    /\ sockets w' = sockets w
    /\ delivered w' = delivered w
    /\ (List.length (filter (or_query A B) (messages w)) < 1000 ->
        In m (range (messages w') A B)).
Proof.
  intros Hparties Hdb HA HB.
  unfold sessionsFor, io_to in HA, HB. cbn [JS.String] in HA, HB.
  destruct r as [req|socket p]; cbn [send_parties] in Hparties.
  - destruct (authMiddleware verify req) as [refused|A'] eqn:Hauth;
      [discriminate Hparties|].
    injection Hparties as -> Hrecv.
    unfold send, bind, post_messages.
    rewrite (route_authenticated _ _ _ _ Hauth).
    rewrite (post_messages_handler_saved A req env w Hdb).
    rewrite Hrecv. cbn [JS.String]. rewrite HB. cbn [map]. rewrite app_nil_r.
    do 3 eexists. split; [reflexivity|].
    split; [intros response Hres; injection Hres as <-; reflexivity|].
    repeat (split; [reflexivity|]).
    intros Hlen. apply appended_in_range; auto.
  - injection Hparties as Hsend Hrecv.
    unfold send, bind.
    rewrite (on_sendMessage_saved socket p env w Hdb).
    cbn [sender]. rewrite Hsend, Hrecv. cbn [JS.String].
    rewrite HA, HB. cbn [map]. rewrite !app_nil_r.
    exists (mkMessage (fresh_oid env) (Some A) (Some B) (p_text p)
                      (p_media_url p) (Date_now env)).
    do 2 eexists. split; [reflexivity|].
    split; [intros response Hres; discriminate Hres|].
    repeat (split; [reflexivity|]).
    intros Hlen. apply appended_in_range; auto.
Qed.

Lemma send_offline_persists_witness :
  exists (m : Message) (answer : option Response) (w' : Server),
    send sample_verify
         (ViaSocket socket_anon (mkSendPayload (Some u1) (Some u2) (Some "yo") None))
         (env_up 100 7) w_chat = (w', Done answer)
    /\ (forall response, answer = Some response ->
                         response = res_json (JsonMessage m))
    /\ sender m = Some u1 /\ receiver m = Some u2
    /\ messages w' = messages w_chat ++ [m]
    /\ sockets w' = sockets w_chat
    /\ delivered w' = delivered w_chat
    /\ In m (range (messages w') u1 u2).
Proof.
  destruct (send_offline_persists
              sample_verify
              (ViaSocket socket_anon
                         (mkSendPayload (Some u1) (Some u2) (Some "yo") None))
              (env_up 100 7) w_chat u1 u2)
    as (m & answer & w' & Hrun & Hanswer & Hs & Hr & Hm & Hsockets & Hd & Hin);
    try reflexivity.
  exists m, answer, w'.
  split; [exact Hrun|]. split; [exact Hanswer|]. split; [exact Hs|].
  split; [exact Hr|]. split; [exact Hm|]. split; [exact Hsockets|].
  split; [exact Hd|].
  apply Hin. vm_compute. lia.
Defined.

(** C9: on a socket whose [userId] is set (truthy), the sender of the
    message built by ['sendMessage'] is that [userId], whatever the payload's
    [from]: two payloads that differ in [from] only have the same effect on
    the server, stored record and pushes included. *)
Theorem authenticated_sendMessage_ignores_from
        (socket : Socket) (p : SendPayload) (env : Env) (w : Server) :
  JS.truthy (userId socket) = true ->
  (forall p' : SendPayload,
      p_to p' = p_to p -> p_text p' = p_text p -> p_media_url p' = p_media_url p ->
      on_sendMessage socket p' env w = on_sendMessage socket p env w)
  /\ exists m : Message,
       sender m = userId socket
       /\ receiver m = p_to p
       /\ messages (fst (on_sendMessage socket p env w))
          = if db_ok env then messages w ++ [m] else messages w.
Proof.
  intros Hauth. split.
  - intros p' Hto Htext Hmedia.
    unfold on_sendMessage, bind, new_Message, JS.or.
    rewrite Hauth, Hto, Htext, Hmedia. reflexivity.
  - exists (mkMessage (fresh_oid env) (userId socket) (p_to p) (p_text p)
                      (p_media_url p) (Date_now env)).
    split; [reflexivity|]. split; [reflexivity|].
    destruct (db_ok env) eqn:Hdb.
    + rewrite (on_sendMessage_saved socket p env w Hdb).
      unfold JS.or. rewrite Hauth. reflexivity.
    + rewrite (on_sendMessage_failed socket p env w Hdb). reflexivity.
Qed.

Lemma authenticated_sendMessage_ignores_from_witness :
  (forall p' : SendPayload,
      p_to p' = Some u2 -> p_text p' = Some "hi" -> p_media_url p' = None ->
      on_sendMessage socket_c1 p' (env_up 100 7) w_online
      = on_sendMessage socket_c1 (mkSendPayload (Some u9) (Some u2) (Some "hi") None)
                       (env_up 100 7) w_online)
  /\ exists m : Message,
       sender m = Some u1
       /\ receiver m = Some u2
       /\ messages (fst (on_sendMessage
                           socket_c1
                           (mkSendPayload (Some u9) (Some u2) (Some "hi") None)
                           (env_up 100 7) w_online))
          = [m].
Proof.
  apply (authenticated_sendMessage_ignores_from
           socket_c1 (mkSendPayload (Some u9) (Some u2) (Some "hi") None)
           (env_up 100 7) w_online).
  reflexivity.
Defined.

(** C10: whatever the path parameter, a history fetch by a caller
    authenticated as A either rejects (the query failed) or answers with
    messages of the collection that all have A as their sender or as their
    receiver; the server state is left as it was. *)
Theorem get_messages_only_own_conversations
        (verify : string -> option string) (req : Request) (env : Env)
        (w : Server) (A : string) :
  authMiddleware verify req = inr A ->
  exists answer : list Message,
    Forall (fun m => In m (messages w) /\ participant A m) answer
    /\ get_messages verify req env w
       = if db_ok env then (w, Done (res_json (JsonMessages answer)))
         else (w, Threw "MongoError").
Proof.
  intros Hauth.
  exists (range (messages w) A (params_userId req)). split.
  - apply Forall_forall. intros m Hin.
    apply in_range in Hin. destruct Hin as [Hstored Hq].
    split; [exact Hstored|].
    apply or_query_participant with (other := params_userId req). exact Hq.
  - unfold get_messages. rewrite (route_authenticated _ _ _ _ Hauth).
    unfold get_messages_handler, bind, find_sort_limit, ret.
    destruct (db_ok env); reflexivity.
Qed.

Lemma get_messages_only_own_conversations_witness :
  exists answer : list Message,
    Forall (fun m => In m (messages w_chat) /\ participant u3 m) answer
    /\ get_messages sample_verify req_u3_history_u2 (env_up 100 7) w_chat
       = (w_chat, Done (res_json (JsonMessages answer))).
Proof.
  apply (get_messages_only_own_conversations
           sample_verify req_u3_history_u2 (env_up 100 7) w_chat u3).
  reflexivity.
Defined.

(** * Further properties of the code *)

(** ** What each handler does to the server *)

Lemma push_of_stored_app (docs added : list Message) (p : Push) :
  push_of_stored docs p -> push_of_stored (docs ++ added) p.
Proof.
  unfold push_of_stored. destruct (data p); intros H; apply in_or_app; left; exact H.
Qed.

(** POST /messages leaves the sockets alone, adds at most one record and
    pushes only that record. *)
Lemma post_messages_frame (verify : string -> option string) (req : Request)
      (env : Env) (w : Server) :
  let w' := fst (post_messages verify req env w) in
  sockets w' = sockets w
  /\ exists added pushes,
       messages w' = messages w ++ added
       /\ List.length added <= 1
       /\ delivered w' = delivered w ++ pushes
       /\ Forall (push_of_stored (messages w')) pushes.
Proof.
  unfold post_messages, route.
  destruct (authMiddleware verify req) as [refused|A].
  - cbn. split; [reflexivity|]. exists [], [].
    rewrite !app_nil_r. repeat split; auto.
  - destruct (db_ok env) eqn:Hdb.
    + rewrite (post_messages_handler_saved A req env w Hdb).
      cbn [fst sockets messages delivered]. split; [reflexivity|].
      do 2 eexists. split; [reflexivity|]. split; [cbn; lia|].
      split; [reflexivity|].
      apply Forall_forall. intros p Hp. apply in_map_iff in Hp.
      destruct Hp as (s & <- & _). unfold push_of_stored. cbn [data].
      apply in_or_app. right. left. reflexivity.
    + rewrite (post_messages_handler_failed A req env w Hdb).
      cbn. split; [reflexivity|]. exists [], [].
      rewrite !app_nil_r. repeat split; auto.
Qed.

(** ['sendMessage'] leaves the sockets alone, adds at most one record and
    pushes only that record. *)
Lemma on_sendMessage_frame (socket : Socket) (p : SendPayload)
      (env : Env) (w : Server) :
  let w' := fst (on_sendMessage socket p env w) in
  sockets w' = sockets w
  /\ exists added pushes,
       messages w' = messages w ++ added
       /\ List.length added <= 1
       /\ delivered w' = delivered w ++ pushes
       /\ Forall (push_of_stored (messages w')) pushes.
Proof.
  destruct (db_ok env) eqn:Hdb.
  - rewrite (on_sendMessage_saved socket p env w Hdb).
    cbn [fst sockets messages delivered]. split; [reflexivity|].
    do 2 eexists. split; [reflexivity|]. split; [cbn; lia|].
    split; [rewrite <- app_assoc; reflexivity|].
    apply Forall_forall. intros q Hq. apply in_app_or in Hq.
    unfold push_of_stored.
    destruct Hq as [Hq|Hq]; apply in_map_iff in Hq;
      destruct Hq as (s & <- & _); cbn [data];
      apply in_or_app; right; left; reflexivity.
  - rewrite (on_sendMessage_failed socket p env w Hdb).
    cbn. split; [reflexivity|]. exists [], [].
    rewrite !app_nil_r. repeat split; auto.
Qed.

(** GET /messages/:userId never changes the server. *)
Lemma get_messages_frame (verify : string -> option string) (req : Request)
      (env : Env) (w : Server) :
  fst (get_messages verify req env w) = w.
Proof.
  unfold get_messages, route.
  destruct (authMiddleware verify req) as [refused|A]; [reflexivity|].
  unfold get_messages_handler, bind, find_sort_limit, ret.
  destruct (db_ok env); reflexivity.
Qed.

Lemma handle_store (verify : string -> option string) (ev : Event)
      (env : Env) (w : Server) :
  let w' := handle verify ev env w in
  exists added pushes,
    messages w' = messages w ++ added
    /\ List.length added <= 1
    /\ delivered w' = delivered w ++ pushes
    /\ Forall (push_of_stored (messages w')) pushes.
Proof.
  assert (Hsame : forall w0 : Server,
             messages w0 = messages w -> delivered w0 = delivered w ->
             exists added pushes,
               messages w0 = messages w ++ added
               /\ List.length added <= 1
               /\ delivered w0 = delivered w ++ pushes
               /\ Forall (push_of_stored (messages w0)) pushes).
  { intros w0 Hm Hd. exists [], []. rewrite !app_nil_r. repeat split; auto. }
  destruct ev as [sid token|sid|req|req|sid payload]; cbn [handle].
  - apply Hsame; reflexivity.
  - apply Hsame; reflexivity.
  - apply post_messages_frame.
  - rewrite get_messages_frame. apply Hsame; reflexivity.
  - destruct (socket_of sid w) as [socket|].
    + apply on_sendMessage_frame.
    + apply Hsame; reflexivity.
Qed.

Lemma connect_joined_own_room (verify : string -> option string)
      (sid : string) (token : option string) :
  joined_own_room (connect verify sid token).
Proof. unfold joined_own_room, connect. reflexivity. Qed.

Lemma handle_joined_own_room (verify : string -> option string) (ev : Event)
      (env : Env) (w : Server) :
  Forall joined_own_room (sockets w) ->
  Forall joined_own_room (sockets (handle verify ev env w)).
Proof.
  intros Hinv.
  destruct ev as [sid token|sid|req|req|sid payload]; cbn [handle].
  - cbn [on_connection fst sockets].
    apply Forall_app. split; [exact Hinv|].
    constructor; [apply connect_joined_own_room|constructor].
  - cbn [on_disconnect fst sockets].
    apply Forall_forall. intros s Hs. apply filter_In in Hs.
    rewrite Forall_forall in Hinv. apply Hinv, Hs.
  - destruct (post_messages_frame verify req env w) as [-> _]. exact Hinv.
  - rewrite get_messages_frame. exact Hinv.
  - destruct (socket_of sid w) as [socket|]; [|exact Hinv].
    destruct (on_sendMessage_frame socket payload env w) as [-> _]. exact Hinv.
Qed.

(** A socket that joined only its own room is in [room] exactly when it is
    the socket of the user [room]. *)
Lemma in_own_room (room : string) (s : Socket) :
  joined_own_room s -> in_room room s = true -> userId s = Some room.
Proof.
  unfold joined_own_room, in_room. intros Hrooms Hin. rewrite Hrooms in Hin.
  destruct (userId s) as [id|]; cbn in Hin.
  - destruct (id =? EmptyString); cbn in Hin; [discriminate Hin|].
    rewrite orb_false_r in Hin. apply String.eqb_eq in Hin. congruence.
  - discriminate Hin.
Qed.

(** ** Invariants of a run *)

(** X1: the Message collection is append-only.  Whatever requests, socket
    events, connections and disconnections the server handles, the records
    stored before are still there, in the same order, and at most one record
    per handled event has been added behind them. *)
Theorem run_messages_append_only
        (verify : string -> option string) (trace : list (Env * Event)) (w : Server) :
  exists added : list Message,
    messages (run verify trace w) = messages w ++ added
    /\ List.length added <= List.length trace.
Proof.
  revert w. induction trace as [|[env ev] rest IH]; intros w; cbn [run].
  - exists []. rewrite app_nil_r. split; [reflexivity|cbn; lia].
  - destruct (handle_store verify ev env w) as (added & _ & Hm & Hlen & _).
    destruct (IH (handle verify ev env w)) as (more & Hmore & Hlen').
    exists (added ++ more). rewrite Hmore, Hm, app_assoc.
    split; [reflexivity|]. rewrite length_app. cbn [List.length]. lia.
Qed.

(** X2: nothing is pushed that is not stored.  If every event delivered so
    far carries a record of the collection, this remains so after any run:
    both transports push a message only after (and as) it was saved. *)
Theorem run_pushes_are_stored
        (verify : string -> option string) (trace : list (Env * Event)) (w : Server) :
  Forall (push_of_stored (messages w)) (delivered w) ->
  Forall (push_of_stored (messages (run verify trace w)))
         (delivered (run verify trace w)).
Proof.
  revert w. induction trace as [|[env ev] rest IH]; intros w Hinv; cbn [run].
  - exact Hinv.
  - apply IH.
    destruct (handle_store verify ev env w) as (added & pushes & Hm & _ & Hd & Hnew).
    rewrite Hd. apply Forall_app. split; [|exact Hnew].
    rewrite Hm. revert Hinv. apply Forall_impl.
    intros p. apply push_of_stored_app.
Qed.

Lemma run_pushes_are_stored_witness :
  Forall (push_of_stored (messages (run sample_verify sample_trace w_empty)))
         (delivered (run sample_verify sample_trace w_empty)).
Proof.
  apply (run_pushes_are_stored sample_verify sample_trace w_empty).
  constructor.
Defined.

(** X3: a connected socket is in its own user's room and in no other.  If
    this holds of the sockets of a server (as it does when none is
    connected), it holds after any run: the only [join] is the one of the
    ['connection'] handler. *)
Theorem run_sockets_joined_own_room
        (verify : string -> option string) (trace : list (Env * Event)) (w : Server) :
  Forall joined_own_room (sockets w) ->
  Forall joined_own_room (sockets (run verify trace w)).
Proof.
  revert w. induction trace as [|[env ev] rest IH]; intros w Hinv; cbn [run].
  - exact Hinv.
  - apply IH, handle_joined_own_room, Hinv.
Qed.

Lemma run_sockets_joined_own_room_witness :
  Forall joined_own_room (sockets (run sample_verify sample_trace w_empty)).
Proof.
  apply (run_sockets_joined_own_room sample_verify sample_trace w_empty).
  constructor.
Defined.

(** X4: a send reaches the two parties only.  On a server whose sockets are
    in their own rooms, every event a send (over either transport) delivers
    goes to a connected socket whose [userId] is [String(receiver)] or
    [String(sender)] of the message: no third user's session and no
    anonymous session is ever pushed to.  A send whose save fails delivers
    nothing. *)
Theorem send_pushes_to_parties_only
        (verify : string -> option string) (r : SendRequest) (env : Env)
        (w : Server) (from to : option string) :
  Forall joined_own_room (sockets w) ->
  send_parties verify r = Some (from, to) ->
  exists pushes : list Push,
    delivered (fst (send verify r env w)) = delivered w ++ pushes
    /\ Forall (fun p =>
                 exists s : Socket,
                   In s (sockets w) /\ socket_id s = target p
                   /\ (userId s = Some (JS.String to)
                       \/ userId s = Some (JS.String from)))
              pushes
    /\ (db_ok env = false -> pushes = []).
Proof.
  intros Hinv Hparties. rewrite Forall_forall in Hinv.
  assert (Hroom : forall (room ev : string) (d : EventData)
                         (side : option string -> Prop),
             side (Some room) ->
             Forall (fun p => exists s, In s (sockets w) /\ socket_id s = target p
                                        /\ side (userId s))
                    (map (fun s => mkPush (socket_id s) ev d)
                         (filter (in_room room) (sockets w)))).
  { intros room ev d side Hside. apply Forall_forall. intros p Hp.
    apply in_map_iff in Hp. destruct Hp as (s & <- & Hs).
    apply filter_In in Hs. destruct Hs as [Hs Hin].
    exists s. split; [exact Hs|]. split; [reflexivity|].
    rewrite (in_own_room room s (Hinv s Hs) Hin). exact Hside. }
  destruct r as [req|socket p]; cbn [send_parties] in Hparties.
  - destruct (authMiddleware verify req) as [refused|A] eqn:Hauth;
      [discriminate Hparties|].
    injection Hparties as <- <-.
    unfold send, bind, post_messages. rewrite (route_authenticated _ _ _ _ Hauth).
    destruct (db_ok env) eqn:Hdb.
    + rewrite (post_messages_handler_saved A req env w Hdb).
      cbn [fst delivered ret]. eexists. split; [reflexivity|].
      split; [|intros Hfailed; discriminate Hfailed].
      apply Hroom with (side := fun u => u = Some (JS.String (receiverId req))
                                         \/ u = Some (JS.String (Some A))).
      left. reflexivity.
    + rewrite (post_messages_handler_failed A req env w Hdb).
      exists []. cbn. rewrite app_nil_r.
      split; [reflexivity|]. split; [constructor|reflexivity].
  - injection Hparties as <- <-.
    unfold send, bind.
    destruct (db_ok env) eqn:Hdb.
    + rewrite (on_sendMessage_saved socket p env w Hdb).
      cbn [fst delivered ret sender]. eexists.
      split; [rewrite <- app_assoc; reflexivity|].
      split; [|intros Hfailed; discriminate Hfailed].
      apply Forall_app. split.
      * apply Hroom with
          (side := fun u => u = Some (JS.String (p_to p))
                            \/ u = Some (JS.String (JS.or (userId socket) (p_from p)))).
        left. reflexivity.
      * apply Hroom with
          (side := fun u => u = Some (JS.String (p_to p))
                            \/ u = Some (JS.String (JS.or (userId socket) (p_from p)))).
        right. reflexivity.
    + rewrite (on_sendMessage_failed socket p env w Hdb).
      exists []. cbn. rewrite app_nil_r.
      split; [reflexivity|]. split; [constructor|reflexivity].
Qed.

Lemma send_pushes_to_parties_only_witness :
  exists pushes : list Push,
    delivered (fst (send sample_verify
                         (ViaSocket socket_anon
                                    (mkSendPayload (Some u1) (Some u2) (Some "yo") None))
                         (env_up 100 7) w_online))
    = delivered w_online ++ pushes
    /\ Forall (fun p =>
                 exists s : Socket,
                   In s (sockets w_online) /\ socket_id s = target p
                   /\ (userId s = Some (JS.String (Some u2))
                       \/ userId s = Some (JS.String (Some u1))))
              pushes
    /\ (db_ok (env_up 100 7) = false -> pushes = []).
Proof.
  apply (send_pushes_to_parties_only
           sample_verify
           (ViaSocket socket_anon (mkSendPayload (Some u1) (Some u2) (Some "yo") None))
           (env_up 100 7) w_online (Some u1) (Some u2)).
  - repeat constructor.
  - reflexivity.
Defined.

(** ** The Authorization header *)

Lemma split_space_one_word (s : string) :
  no_space s = true -> JS.split_space s = [s].
Proof.
  induction s as [|c rest IH]; cbn [no_space JS.split_space]; intros Hs.
  - reflexivity.
  - apply andb_true_iff in Hs. destruct Hs as [Hc Hrest].
    apply negb_true_iff in Hc. rewrite Hc, (IH Hrest). reflexivity.
Qed.

Lemma split_space_first_word (a b : string) :
  no_space a = true ->
  JS.split_space (a ++ String.String " " b) = a :: JS.split_space b.
Proof.
  induction a as [|c rest IH]; cbn [no_space JS.split_space String.append];
    intros Ha.
  - reflexivity.
  - apply andb_true_iff in Ha. destruct Ha as [Hc Hrest].
    apply negb_true_iff in Hc. rewrite Hc, (IH Hrest). reflexivity.
Qed.

(** X5: [authMiddleware] never looks at the scheme.  For a header made of
    any word (even the empty one), one space and a non-empty token without
    spaces, the request is authenticated exactly as [jwt.verify] decides on
    the token: [Basic <token>] passes like [Bearer <token>]. *)
Theorem authMiddleware_ignores_scheme
        (verify : string -> option string) (req : Request) (scheme token : string) :
  no_space scheme = true ->
  no_space token = true ->
  negb (token =? EmptyString) = true ->
  authorization req = Some (scheme ++ String.String " " token)%string ->
  authMiddleware verify req
  = match verify token with
    | Some id => inr id
    | None => inl (res_status_json 401 "Invalid token")
    end.
Proof.
  intros Hscheme Htoken Hnonempty Hheader.
  unfold authMiddleware. rewrite Hheader.
  assert (Hne : (scheme ++ String.String " " token =? EmptyString) = false)
    by (destruct scheme; reflexivity).
  rewrite Hne, (split_space_first_word scheme token Hscheme).
  rewrite (split_space_one_word token Htoken). cbn [nth_error].
  apply negb_true_iff in Hnonempty. rewrite Hnonempty. reflexivity.
Qed.

Lemma authMiddleware_ignores_scheme_witness :
  authMiddleware sample_verify
                 (mkRequest (Some ("Basic valid:" ++ u1)%string) None None None u2)
  = inr u1.
Proof.
  apply (authMiddleware_ignores_scheme
           sample_verify
           (mkRequest (Some ("Basic valid:" ++ u1)%string) None None None u2)
           "Basic" ("valid:" ++ u1)%string);
    reflexivity.
Defined.

(** X6: no handler behind [authMiddleware] runs unauthenticated.  Every
    request is either answered 401 with an error body, the server left as it
    was and the handler not run, or handled under an identity that
    [jwt.verify] returned for the second space-separated word of the
    Authorization header. *)
Theorem route_runs_only_verified
        (verify : string -> option string)
        (handler : string -> Request -> Async Response)
        (req : Request) (env : Env) (w : Server) :
  (exists error : string,
      route verify handler req env w = (w, Done (res_status_json 401 error)))
  \/ (exists header token id : string,
         authorization req = Some header
         /\ nth_error (JS.split_space header) 1 = Some token
         /\ verify token = Some id
         /\ route verify handler req env w = handler id req env w).
Proof.
  unfold route, authMiddleware.
  destruct (authorization req) as [header|];
    [|left; eexists; reflexivity].
  destruct (header =? EmptyString); [left; eexists; reflexivity|].
  destruct (nth_error (JS.split_space header) 1) as [token|] eqn:Htoken;
    [|left; eexists; reflexivity].
  destruct (token =? EmptyString); [left; eexists; reflexivity|].
  destruct (verify token) as [id|] eqn:Hverify;
    [|left; eexists; reflexivity].
  right. exists header, token, id. repeat split; assumption.
Qed.

(** ** Connections and delivery *)

Lemma handle_keeps_socket (verify : string -> option string) (ev : Event)
      (env : Env) (w : Server) (s : Socket) :
  In s (sockets w) ->
  stays_connected (socket_id s) [(env, ev)] = true ->
  In s (sockets (handle verify ev env w)).
Proof.
  intros Hin Hstays. cbn in Hstays. rewrite andb_true_r in Hstays.
  destruct ev as [sid token|sid|req|req|sid payload]; cbn [handle].
  - cbn [on_connection fst sockets]. apply in_or_app. left. exact Hin.
  - cbn [on_disconnect fst sockets]. apply filter_In. split; [exact Hin|].
    rewrite String.eqb_sym. exact Hstays.
  - destruct (post_messages_frame verify req env w) as [-> _]. exact Hin.
  - rewrite get_messages_frame. exact Hin.
  - destruct (socket_of sid w) as [socket|]; [|exact Hin].
    destruct (on_sendMessage_frame socket payload env w) as [-> _]. exact Hin.
Qed.

Lemma run_keeps_socket (verify : string -> option string)
      (trace : list (Env * Event)) (w : Server) (s : Socket) :
  In s (sockets w) ->
  stays_connected (socket_id s) trace = true ->
  In s (sockets (run verify trace w)).
Proof.
  revert w. induction trace as [|[env ev] rest IH]; intros w Hin Hstays;
    cbn [run]; [exact Hin|].
  unfold stays_connected in Hstays. cbn [forallb] in Hstays.
  apply andb_true_iff in Hstays. destruct Hstays as [Hev Hrest].
  apply IH; [|exact Hrest].
  apply handle_keeps_socket; [exact Hin|].
  unfold stays_connected. cbn [forallb]. rewrite Hev. reflexivity.
Qed.

(** X7: connecting makes a user reachable.  A socket connects with a token
    that [jwt.verify] accepts for a non-empty id and stays connected while
    the server handles any further events.  Then a message addressed to that
    id, through POST /messages or through ['sendMessage'], whose save
    succeeds, is stored and this send pushes to that socket a ['message']
    event that carries the stored record. *)
Theorem connected_user_is_pushed_to
        (verify : string -> option string) (sid token id : string)
        (trace : list (Env * Event)) (r : SendRequest) (from : option string)
        (env0 env : Env) (w : Server) :
  negb (token =? EmptyString) = true ->
  verify token = Some id ->
  JS.truthy (Some id) = true ->
  stays_connected sid trace = true ->
  send_parties verify r = Some (from, Some id) ->
  db_ok env = true ->
  let w1 := run verify trace
                (fst (on_connection verify sid (Some token) env0 w)) in
  exists (m : Message) (pushes : list Push) (d : EventData),
    messages (fst (send verify r env w1)) = messages w1 ++ [m]
    /\ sender m = from
    /\ receiver m = Some id
    /\ delivered (fst (send verify r env w1)) = delivered w1 ++ pushes
    /\ In (mkPush sid "message" d) pushes
    /\ (d = Document m
        \/ d = PlainObject (_id m) (sender m) (receiver m) (text m)
                           (media_url m) (createdAt m)).
Proof.
  intros Htoken Hverify Hid Hstays Hparties Hdb w1.
  assert (Huid : io_use verify (Some token) = Some id).
  { unfold io_use. apply negb_true_iff in Htoken.
    rewrite Htoken, Hverify. reflexivity. }
  set (joined := connect verify sid (Some token)).
  assert (Hsid : socket_id joined = sid) by reflexivity.
  assert (Hin : In joined (filter (in_room id) (sockets w1))).
  { apply filter_In. split.
    - subst w1. apply run_keeps_socket; [|rewrite Hsid; exact Hstays].
      cbn [on_connection fst sockets]. apply in_or_app.
      right. left. reflexivity.
    - subst joined. unfold connect. rewrite Huid, Hid. unfold in_room.
      cbn [rooms JS.String existsb].
      rewrite String.eqb_refl. reflexivity. }
  clearbody w1.
  destruct r as [req|socket p]; cbn [send_parties] in Hparties.
  - destruct (authMiddleware verify req) as [refused|A] eqn:Hauth;
      [discriminate Hparties|].
    injection Hparties as <- Hrecv.
    unfold send, bind, post_messages. rewrite (route_authenticated _ _ _ _ Hauth).
    rewrite (post_messages_handler_saved A req env w1 Hdb).
    cbn [fst messages delivered ret]. rewrite Hrecv. cbn [JS.String].
    exists (mkMessage (fresh_oid env) (Some A) (Some id) (body_text req)
                      (body_media_url req) (Date_now env)).
    do 2 eexists. split; [reflexivity|]. split; [reflexivity|].
    split; [reflexivity|]. split; [reflexivity|].
    split; [|right; reflexivity].
    rewrite <- Hsid.
    apply (in_map (fun s => mkPush (socket_id s) "message" _)). exact Hin.
  - injection Hparties as <- Hrecv.
    unfold send, bind.
    rewrite (on_sendMessage_saved socket p env w1 Hdb).
    cbn [fst messages delivered ret sender]. rewrite Hrecv. cbn [JS.String].
    exists (mkMessage (fresh_oid env) (JS.or (userId socket) (p_from p)) (Some id)
                      (p_text p) (p_media_url p) (Date_now env)).
    do 2 eexists. split; [reflexivity|]. split; [reflexivity|].
    split; [reflexivity|]. split; [rewrite <- app_assoc; reflexivity|].
    split; [|left; reflexivity].
    apply in_or_app. left. rewrite <- Hsid.
    apply (in_map (fun s => mkPush (socket_id s) "message" _)). exact Hin.
Qed.

Lemma connected_user_is_pushed_to_witness :
  let w1 := run sample_verify sample_interlude
                (fst (on_connection sample_verify "c7"
                                    (Some ("valid:" ++ u3)%string)
                                    (env_up 49 49) w_online)) in
  exists (m : Message) (pushes : list Push) (d : EventData),
    messages (fst (send sample_verify (ViaHttp req_u2_to_u3) (env_up 100 7) w1))
    = messages w1 ++ [m]
    /\ sender m = Some u2
    /\ receiver m = Some u3
    /\ delivered (fst (send sample_verify (ViaHttp req_u2_to_u3) (env_up 100 7) w1))
       = delivered w1 ++ pushes
    /\ In (mkPush "c7" "message" d) pushes
    /\ (d = Document m
        \/ d = PlainObject (_id m) (sender m) (receiver m) (text m)
                           (media_url m) (createdAt m)).
Proof.
  apply (connected_user_is_pushed_to
           sample_verify "c7" ("valid:" ++ u3)%string u3 sample_interlude
           (ViaHttp req_u2_to_u3) (Some u2) (env_up 49 49) (env_up 100 7) w_online);
    reflexivity.
Defined.

(** X8: a message a user sends to themselves over a socket is pushed twice.
    When the sender of a ['sendMessage'] event is also its receiver, the
    handler emits to the same room twice, so each session of that user
    receives two copies of the saved document. *)
Theorem self_sendMessage_pushes_twice
        (socket : Socket) (p : SendPayload) (env : Env) (w : Server) :
  db_ok env = true ->
  JS.or (userId socket) (p_from p) = p_to p ->
  exists m : Message,
    messages (fst (on_sendMessage socket p env w)) = messages w ++ [m]
    /\ let copies := map (fun s => mkPush (socket_id s) "message" (Document m))
                         (sessionsFor w (p_to p)) in
       delivered (fst (on_sendMessage socket p env w))
       = delivered w ++ copies ++ copies.
Proof.
  intros Hdb Hself.
  rewrite (on_sendMessage_saved socket p env w Hdb).
  cbn [fst messages delivered sender]. rewrite Hself.
  eexists. split; [reflexivity|].
  cbn zeta. rewrite <- app_assoc. reflexivity.
Qed.

Lemma self_sendMessage_pushes_twice_witness :
  exists m : Message,
    messages (fst (on_sendMessage socket_c1
                                  (mkSendPayload None (Some u1) (Some "note") None)
                                  (env_up 100 7) w_online))
    = messages w_online ++ [m]
    /\ let copies := map (fun s => mkPush (socket_id s) "message" (Document m))
                         (sessionsFor w_online (Some u1)) in
       delivered (fst (on_sendMessage socket_c1
                                      (mkSendPayload None (Some u1) (Some "note") None)
                                      (env_up 100 7) w_online))
       = delivered w_online ++ copies ++ copies.
Proof.
  apply (self_sendMessage_pushes_twice
           socket_c1 (mkSendPayload None (Some u1) (Some "note") None)
           (env_up 100 7) w_online);
    reflexivity.
Defined.

(** ** Sends and histories *)

(** A send that reaches its handler and whose write is accepted stores one
    record, with the parties of the send and the time of the clock. *)
Lemma send_saved (verify : string -> option string) (r : SendRequest)
      (env : Env) (w : Server) (from to : option string) :
  send_parties verify r = Some (from, to) ->
  db_ok env = true ->
  exists t mu : option string,
    messages (fst (send verify r env w))
    = messages w ++ [mkMessage (fresh_oid env) from to t mu (Date_now env)].
Proof.
  intros Hparties Hdb.
  destruct r as [req|socket p]; cbn [send_parties] in Hparties.
  - destruct (authMiddleware verify req) as [refused|A] eqn:Hauth;
      [discriminate Hparties|].
    injection Hparties as <- <-.
    unfold send, bind, post_messages. rewrite (route_authenticated _ _ _ _ Hauth).
    rewrite (post_messages_handler_saved A req env w Hdb).
    do 2 eexists. reflexivity.
  - injection Hparties as <- <-.
    unfold send, bind. rewrite (on_sendMessage_saved socket p env w Hdb).
    do 2 eexists. reflexivity.
Qed.

Lemma send_unauthenticated_leaves_state (verify : string -> option string)
      (r : SendRequest) (env : Env) (w : Server) :
  send_parties verify r = None -> fst (send verify r env w) = w.
Proof.
  destruct r as [req|socket p]; cbn [send_parties]; [|discriminate].
  unfold send, bind, post_messages, route.
  destruct (authMiddleware verify req); [reflexivity|discriminate].
Qed.

Lemma insert_createdAt_snoc (x m : Message) (l : list Message) :
  (createdAt x <= createdAt m)%Z ->
  insert_createdAt x (l ++ [m]) = insert_createdAt x l ++ [m].
Proof.
  intros Hle. induction l as [|y rest IH]; cbn [insert_createdAt app].
  - apply Z.leb_le in Hle. rewrite Hle. reflexivity.
  - destruct (createdAt x <=? createdAt y)%Z; [reflexivity|].
    rewrite IH. reflexivity.
Qed.

Lemma sort_createdAt_snoc (l : list Message) (m : Message) :
  Forall (createdAt_before (createdAt m)) l ->
  sort_createdAt (l ++ [m]) = sort_createdAt l ++ [m].
Proof.
  unfold sort_createdAt.
  induction 1 as [|x rest Hx Hrest IH]; cbn [app fold_right].
  - reflexivity.
  - rewrite IH. apply insert_createdAt_snoc.
    unfold createdAt_before in Hx. lia.
Qed.

Lemma range_swap (docs : list Message) (A B : string) :
  range docs A B = range docs B A.
Proof.
  unfold range. do 2 f_equal.
  apply filter_ext. intros m. apply or_query_comm.
Qed.

(** X9: the history of a pair has as many entries as the pair has stored
    messages, up to 1000: a fetch never answers more than 1000 messages and
    drops none while the pair has at most 1000. *)
Theorem range_length (docs : list Message) (A B : string) :
  List.length (range docs A B)
  = Nat.min 1000 (List.length (filter (or_query A B) docs)).
Proof.
  unfold range, limit.
  rewrite length_firstn, (Permutation_length (sort_createdAt_perm _)).
  reflexivity.
Qed.

(** X10: a send does not disturb the history of another pair.  Unless the
    send is between C and D (in either direction), the history of C and D is
    after the send, over either transport and whether or not it succeeds,
    what it was before. *)
Theorem send_keeps_other_histories
        (verify : string -> option string) (r : SendRequest) (env : Env)
        (w : Server) (C D : string) :
  match send_parties verify r with
  | Some (from, to) =>
      (path_is from C && path_is to D) || (path_is from D && path_is to C)
  | None => false
  end = false ->
  range (messages (fst (send verify r env w))) C D = range (messages w) C D.
Proof.
  intros Hother.
  destruct (db_ok env) eqn:Hdb;
    [|rewrite (send_failed_write_leaves_state verify r env w Hdb); reflexivity].
  destruct (send_parties verify r) as [[from to]|] eqn:Hparties;
    [|rewrite (send_unauthenticated_leaves_state verify r env w Hparties);
      reflexivity].
  destruct (send_saved verify r env w from to Hparties Hdb) as (t & mu & ->).
  unfold range. rewrite filter_app. cbn [filter].
  unfold or_query at 2. cbn [sender receiver]. rewrite Hother.
  rewrite app_nil_r. reflexivity.
Qed.

Lemma send_keeps_other_histories_witness :
  range (messages (fst (send sample_verify (ViaHttp req_u2_to_u3)
                             (env_up 100 7) w_chat))) u1 u2
  = range (messages w_chat) u1 u2.
Proof.
  apply (send_keeps_other_histories sample_verify (ViaHttp req_u2_to_u3)
                                    (env_up 100 7) w_chat u1 u2).
  reflexivity.
Defined.

(** X11: a send extends the history of its pair at the end.  When the clock
    is past the creation time of every stored message of A and B, and fewer
    than 1000 of them are stored, the history of the pair after a successful
    send from A to B is the history before it followed by the new record. *)
Theorem send_appends_to_history
        (verify : string -> option string) (r : SendRequest) (env : Env)
        (w : Server) (A B : string) :
  send_parties verify r = Some (Some A, Some B) ->
  db_ok env = true ->
  Forall (createdAt_before (Date_now env)) (filter (or_query A B) (messages w)) ->
  List.length (filter (or_query A B) (messages w)) < 1000 ->
  exists m : Message,
    sender m = Some A /\ receiver m = Some B /\ createdAt m = Date_now env
    /\ range (messages (fst (send verify r env w))) A B
       = range (messages w) A B ++ [m]
    /\ range (messages (fst (send verify r env w))) B A
       = range (messages w) B A ++ [m].
Proof.
  intros Hparties Hdb Hold Hlen.
  destruct (send_saved verify r env w _ _ Hparties Hdb) as (t & mu & Hstore).
  set (m := mkMessage (fresh_oid env) (Some A) (Some B) t mu (Date_now env))
    in Hstore.
  assert (Hq : or_query A B m = true).
  { apply or_query_true. left. split; reflexivity. }
  assert (Hrange : range (messages (fst (send verify r env w))) A B
                   = range (messages w) A B ++ [m]).
  { rewrite Hstore. rewrite (range_all (messages w) A B) by lia.
    unfold range, limit. rewrite filter_app. cbn [filter]. rewrite Hq.
    rewrite (sort_createdAt_snoc _ m Hold).
    apply firstn_all2. rewrite length_app.
    rewrite (Permutation_length (sort_createdAt_perm _)).
    cbn [List.length]. lia. }
  exists m. repeat (split; [reflexivity|]).
  split; [exact Hrange|].
  rewrite <- (range_swap (messages (fst (send verify r env w))) A B).
  rewrite <- (range_swap (messages w) A B).
  exact Hrange.
Qed.

Lemma send_appends_to_history_witness :
  exists m : Message,
    sender m = Some u1 /\ receiver m = Some u2 /\ createdAt m = 100%Z
    /\ range (messages (fst (send sample_verify
                                   (ViaSocket socket_anon
                                              (mkSendPayload (Some u1) (Some u2)
                                                             (Some "yo") None))
                                   (env_up 100 7) w_chat))) u1 u2
       = range (messages w_chat) u1 u2 ++ [m]
    /\ range (messages (fst (send sample_verify
                                   (ViaSocket socket_anon
                                              (mkSendPayload (Some u1) (Some u2)
                                                             (Some "yo") None))
                                   (env_up 100 7) w_chat))) u2 u1
       = range (messages w_chat) u2 u1 ++ [m].
Proof.
  apply (send_appends_to_history
           sample_verify
           (ViaSocket socket_anon (mkSendPayload (Some u1) (Some u2) (Some "yo") None))
           (env_up 100 7) w_chat u1 u2).
  - reflexivity.
  - reflexivity.
  - vm_compute. repeat constructor.
  - vm_compute. lia.
Defined.

(** ** Likes *)

Lemma findById_some (id : N) (posts : list Post) (post : Post) :
  findById id posts = Some post -> In post posts /\ post_id post = id.
Proof.
  unfold findById. intros Hfind. apply find_some in Hfind.
  destruct Hfind as [Hin Hid]. apply N.eqb_eq in Hid. split; assumption.
Qed.

Lemma findById_save_post (id : N) (posts : list Post) (post post' : Post) :
  findById id posts = Some post -> post_id post' = id ->
  findById id (save_post post' posts) = Some post'.
Proof.
  unfold findById, save_post. intros Hfind Hid. subst id.
  induction posts as [|q rest IH]; cbn [find map] in *; [discriminate Hfind|].
  destruct (post_id q =? post_id post')%N eqn:Hq.
  - rewrite N.eqb_refl. reflexivity.
  - rewrite Hq. apply IH, Hfind.
Qed.

Lemma save_post_idempotent (post : Post) (posts : list Post) :
  save_post post (save_post post posts) = save_post post posts.
Proof.
  unfold save_post. rewrite map_map. apply map_ext. intros q.
  destruct (post_id q =? post_id post)%N eqn:Hq; [|rewrite Hq; reflexivity].
  rewrite N.eqb_refl. reflexivity.
Qed.

Lemma likes_includes_In (post : Post) (user : string) :
  likes_includes post user = true <-> In user (likes post).
Proof.
  unfold likes_includes. rewrite existsb_exists. split.
  - intros (v & Hin & Heq). apply String.eqb_eq in Heq. subst v. exact Hin.
  - intros Hin. exists user. split; [exact Hin|apply String.eqb_refl].
Qed.

(** The document the like handler saves for [post]. *)
Lemma like_handler_found (u : string) (id : N) (env : Env) (posts : list Post)
      (post : Post) :
  db_ok env = true -> findById id posts = Some post ->
  like_handler u id env posts
  = (save_post (if likes_includes post u then post else likes_push post u) posts,
     Done LikeSuccess).
Proof.
  intros Hdb Hfind. unfold like_handler. rewrite Hdb, Hfind. reflexivity.
Qed.

(** X12: liking is idempotent.  Once a like request has been handled with
    the database answering, handling the same request again changes nothing
    in the Post collection. *)
Theorem post_like_idempotent
        (verify : string -> option string) (req : Request) (id : N)
        (env1 env2 : Env) (posts : list Post) :
  db_ok env1 = true ->
  fst (post_like verify req id env2 (fst (post_like verify req id env1 posts)))
  = fst (post_like verify req id env1 posts).
Proof.
  intros Hdb1. unfold post_like.
  destruct (authMiddleware verify req) as [refused|u]; [reflexivity|].
  destruct (findById id posts) as [post|] eqn:Hfind.
  - rewrite (like_handler_found u id env1 posts post Hdb1 Hfind). cbn [fst].
    set (post' := if likes_includes post u then post else likes_push post u).
    assert (Hid : post_id post' = id).
    { destruct (findById_some id posts post Hfind) as [_ Hid].
      subst post'. destruct (likes_includes post u); exact Hid. }
    assert (Hliked : likes_includes post' u = true).
    { subst post'. destruct (likes_includes post u) eqn:Hinc; [exact Hinc|].
      apply likes_includes_In. cbn [likes_push likes].
      apply in_or_app. right. left. reflexivity. }
    destruct (db_ok env2) eqn:Hdb2.
    + rewrite (like_handler_found u id env2 _ post' Hdb2
                                  (findById_save_post id posts post post' Hfind Hid)).
      rewrite Hliked. cbn [fst]. apply save_post_idempotent.
    + unfold like_handler at 1. rewrite Hdb2. reflexivity.
  - unfold like_handler at 2 3. rewrite Hdb1, Hfind. cbn [fst].
    unfold like_handler. rewrite Hfind. destruct (db_ok env2); reflexivity.
Qed.

Lemma post_like_idempotent_witness :
  fst (post_like sample_verify req_u2_like 11 (env_up 8 8)
                 (fst (post_like sample_verify req_u2_like 11 (env_up 7 7)
                                 sample_posts)))
  = fst (post_like sample_verify req_u2_like 11 (env_up 7 7) sample_posts).
Proof.
  apply (post_like_idempotent sample_verify req_u2_like 11
                              (env_up 7 7) (env_up 8 8) sample_posts).
  reflexivity.
Defined.

(** X13: a like counts once.  After an authenticated like of an existing
    post the request is answered with success, the caller occurs in the
    post's [likes] once if they did not occur before and as often as before
    otherwise, every other user occurs as often as before, and nothing else
    of the post has changed. *)
Theorem post_like_counts_once
        (verify : string -> option string) (req : Request) (id : N) (env : Env)
        (posts : list Post) (u : string) (post : Post) :
  authMiddleware verify req = inr u ->
  db_ok env = true ->
  findById id posts = Some post ->
  exists (posts' : list Post) (post' : Post),
    post_like verify req id env posts = (posts', Done LikeSuccess)
    /\ findById id posts' = Some post'
    /\ count_occ string_dec (likes post') u
       = Nat.max 1 (count_occ string_dec (likes post) u)
    /\ (forall v : string,
           v <> u ->
           count_occ string_dec (likes post') v = count_occ string_dec (likes post) v)
    /\ (post_id post', post_user post', post_text post', post_media_url post',
        post_createdAt post', comments post')
       = (post_id post, post_user post, post_text post, post_media_url post,
          post_createdAt post, comments post).
Proof.
  intros Hauth Hdb Hfind. unfold post_like. rewrite Hauth.
  rewrite (like_handler_found u id env posts post Hdb Hfind).
  destruct (findById_some id posts post Hfind) as [_ Hid].
  destruct (likes_includes post u) eqn:Hinc.
  - exists (save_post post posts), post.
    split; [reflexivity|].
    split; [apply (findById_save_post id posts post post Hfind Hid)|].
    split; [|split; [reflexivity|reflexivity]].
    apply likes_includes_In in Hinc.
    apply (count_occ_In string_dec) in Hinc. lia.
  - exists (save_post (likes_push post u) posts), (likes_push post u).
    split; [reflexivity|].
    split; [apply (findById_save_post id posts post _ Hfind); exact Hid|].
    assert (Hnot : ~ In u (likes post)).
    { intros Hin. apply likes_includes_In in Hin. congruence. }
    apply (count_occ_not_In string_dec) in Hnot.
    cbn [likes_push likes]. rewrite !count_occ_app. cbn [count_occ].
    split; [|split; [|reflexivity]].
    + destruct (string_dec u u) as [_|Hne]; [lia|contradiction].
    + intros v Hv. rewrite count_occ_app. cbn [count_occ].
      destruct (string_dec u v) as [Heq|_]; [congruence|lia].
Qed.

Lemma post_like_counts_once_witness :
  exists (posts' : list Post) (post' : Post),
    post_like sample_verify req_u2_like 11 (env_up 7 7) sample_posts
    = (posts', Done LikeSuccess)
    /\ findById 11 posts' = Some post'
    /\ count_occ string_dec (likes post') u2
       = Nat.max 1 (count_occ string_dec (likes post_by_u1) u2)
    /\ (forall v : string,
           v <> u2 ->
           count_occ string_dec (likes post') v
           = count_occ string_dec (likes post_by_u1) v)
    /\ (post_id post', post_user post', post_text post', post_media_url post',
        post_createdAt post', comments post')
       = (post_id post_by_u1, post_user post_by_u1, post_text post_by_u1,
          post_media_url post_by_u1, post_createdAt post_by_u1, comments post_by_u1).
Proof.
  apply (post_like_counts_once sample_verify req_u2_like 11 (env_up 7 7)
                               sample_posts u2 post_by_u1);
    reflexivity.
Defined.

(** X14: a like touches one post only.  Whatever the request and its
    outcome, the Post collection keeps its documents' ids in their order
    (no post is created, removed or moved) and every post with another id
    than the one liked is left exactly as it was. *)
Theorem post_like_touches_only_target
        (verify : string -> option string) (req : Request) (id : N) (env : Env)
        (posts : list Post) :
  let posts' := fst (post_like verify req id env posts) in
  map post_id posts' = map post_id posts
  /\ forall (n : nat) (q : Post),
       nth_error posts n = Some q -> post_id q <> id ->
       nth_error posts' n = Some q.
Proof.
  unfold post_like, like_handler.
  destruct (authMiddleware verify req) as [refused|u]; [cbn; auto|].
  destruct (db_ok env); [|cbn; auto].
  destruct (findById id posts) as [post|] eqn:Hfind; [|cbn; auto].
  cbn [fst]. destruct (findById_some id posts post Hfind) as [_ Hid].
  set (post' := if likes_includes post u then post else likes_push post u).
  assert (Hid' : post_id post' = id).
  { subst post'. destruct (likes_includes post u); exact Hid. }
  unfold save_post. rewrite Hid'. split.
  - rewrite map_map. apply map_ext. intros q.
    destruct (post_id q =? id)%N eqn:Hq; [|reflexivity].
    apply N.eqb_eq in Hq. congruence.
  - intros n q Hn Hq. rewrite nth_error_map, Hn. cbn [option_map].
    apply N.eqb_neq in Hq. rewrite Hq. reflexivity.
Qed.

(** ** Malformed Authorization headers *)

(** X15: a header that is a single word, or that has two spaces after its
    first word, is refused with 401 whatever [jwt.verify] would say about
    its content: the token is the second piece of [split(' ')], which is
    missing in the first case and empty in the second. *)
Theorem authMiddleware_malformed_header
        (verify : string -> option string) (req : Request) (header : string) :
  authorization req = Some header ->
  (no_space header = true
   \/ exists scheme rest : string,
        no_space scheme = true
        /\ header = (scheme ++ String.String " " (String.String " " rest))%string) ->
  exists error : string,
    authMiddleware verify req = inl (res_status_json 401 error).
Proof.
  intros Hheader Hshape. unfold authMiddleware. rewrite Hheader.
  destruct (header =? EmptyString); [eexists; reflexivity|].
  destruct Hshape as [Hword|(scheme & rest & Hscheme & ->)].
  - rewrite (split_space_one_word header Hword). cbn [nth_error].
    eexists; reflexivity.
  - rewrite (split_space_first_word scheme _ Hscheme).
    cbn [JS.split_space nth_error]. cbn. eexists; reflexivity.
Qed.

Lemma authMiddleware_malformed_header_witness :
  exists error : string,
    authMiddleware sample_verify
                   (mkRequest (Some ("Bearer  valid:" ++ u1)%string) None None None u2)
    = inl (res_status_json 401 error).
Proof.
  apply (authMiddleware_malformed_header
           sample_verify
           (mkRequest (Some ("Bearer  valid:" ++ u1)%string) None None None u2)
           ("Bearer  valid:" ++ u1)%string).
  - reflexivity.
  - right. exists "Bearer", ("valid:" ++ u1)%string. split; reflexivity.
Defined.
